(** * PySide6Tools: the field synchroniser of [main.py]

    A shallow embedding of [IOHandler] (construction of the accessor table
    by [_connect_gui], the per-widget closure [_connect_func], and the two
    bulk operations returned by [_get_connect_funcs]) together with the
    properties stated for it.

    The GUI toolkit and Python's built-in [eval] are external to the
    program; they enter the development as an interface ([runtime]) over
    which every definition of the program is parameterised.  A small
    executable instance ([Sim]) is used to run the program on concrete
    windows. *)

From Stdlib Require Import ZArith Lia Ascii String.
From stdpp Require Import base strings list gmap.

Local Open Scope string_scope.
Local Open Scope list_scope.

(** ** Python values, exceptions and outcomes *)

(** The values that travel between widgets and the data holder. *)
Inductive pyvalue : Type :=
| VNone
| VBool (b : bool)
| VInt (n : Z)
| VStr (s : string).

(** Exceptions, by class, with the part of the message that identifies
    what went wrong. *)
Inductive exn : Type :=
| TypeError (msg : string)
| AttributeError (name : string)
| IndexError
| NameError (name : string)
| SyntaxError
| OtherError (cls_name : string).

Inductive result (A : Type) : Type :=
| Ok (a : A)
| Raise (e : exn).
Arguments Ok {A} a.
Arguments Raise {A} e.

(** What [except TypeError:] catches. *)
Definition is_TypeError (e : exn) : bool :=
  match e with TypeError _ => true | _ => false end.

(** An attribute value of the window: a reference to an object ([addr]),
    the name of its class ([type(item).__name__]) and the names of the
    classes it inherits from. *)
Record item : Type := Item {
  addr : nat;
  cls : string;
  bases : list string
}.

(** ** The external collaborators *)

(** The local variables of a call of [_connect_func], which an expression
    given to [eval] on line 102 can read. *)
Record frame : Type := Frame {
  f_reverse : bool;
  f_key_arg : string;
  f_item_arg : item;
  f_get_method : string;
  f_set_method : string
}.

(** [world] is the state of all widgets.  [has_method it m] tells whether
    [getattr(it, m)] succeeds, [call_method it m args w] is the call
    [getattr(it, m)( *args )] in world [w]: it yields the world after the
    call (a call that raises may have changed it) and the value returned
    or the exception raised.  [py_eval fr v w holder] is the built-in
    [eval] applied to [v] inside [_connect_func]: the expression sees the
    local variables [fr] and the data holder [inputs], and evaluating it
    can change the widgets and the attributes of the holder, so the call
    yields the world and the holder it leaves besides its value or
    exception. *)
Record runtime : Type := Runtime {
  world : Type;
  has_method : item -> string -> bool;
  call_method : item -> string -> list pyvalue -> world -> world * result pyvalue;
  py_eval : frame -> pyvalue -> world -> gmap string pyvalue ->
            world * gmap string pyvalue * result pyvalue
}.

(** [IOHandler.input_types], lines 26-29. *)
Definition input_types : list (string * (string * string)) :=
  [ ("QLineEdit", ("text", "setText"));
    ("QComboBox", ("currentText", "setCurrentText"));
    ("QSpinBox", ("value", "setValue"));
    ("QCheckBox", ("isChecked", "setChecked")) ].

Definition supported_kinds : list string := input_types.*1.

(** [_check_type], lines 75-77. *)
Definition _check_type (type_arg : string) (item_arg : item) : bool :=
  if negb (String.eqb (cls item_arg) type_arg) then false else true.

Section Program.

Variable R : runtime.

(** ** Program state and the monad of statements *)

(** The mutable state a call can touch: the widgets and the attributes of
    the data holder ([inputs.__dict__]), a plain object of its own. *)
Record state : Type := State {
  widgets : world R;
  inputs : gmap string pyvalue
}.

(** A statement runs from a state to a state and either a value or a
    raised exception; the state reached when an exception is raised is
    kept, as Python undoes nothing. *)
Definition M (A : Type) : Type := state -> state * result A.

Definition ret {A} (a : A) : M A := fun s => (s, Ok a).

Definition bind {A B} (m : M A) (f : A -> M B) : M B :=
  fun s =>
    match m s with
    | (s', Ok a) => f a s'
    | (s', Raise e) => (s', Raise e)
    end.

Notation "x <- m ;; k" := (bind m (fun x => k))
  (at level 100, m at next level, right associativity).

(** [try: body except TypeError: handler]. *)
Definition try_except_TypeError {A} (body handler : M A) : M A :=
  fun s =>
    match body s with
    | (s', Raise e) => if is_TypeError e then handler s' else (s', Raise e)
    | r => r
    end.

(** [getattr(inputs, key)] on a plain object. *)
Definition getattr_inputs (key : string) : M pyvalue :=
  fun s =>
    match inputs s !! key with
    | Some v => (s, Ok v)
    | None => (s, Raise (AttributeError key))
    end.

(** [setattr(inputs, key, v)]. *)
Definition setattr_inputs (key : string) (v : pyvalue) : M unit :=
  fun s => (State (widgets s) (<[key := v]> (inputs s)), Ok tt).

(** [getattr(item, name)]: the bound method, when the object has it. *)
Definition getattr_item (it : item) (name : string) : M (item * string) :=
  fun s =>
    if has_method R it name then (s, Ok (it, name))
    else (s, Raise (AttributeError name)).

(** Calling a bound method. *)
Definition call (f : item * string) (args : list pyvalue) : M pyvalue :=
  fun s =>
    let '(w, r) := call_method R f.1 f.2 args (widgets s) in
    (State w (inputs s), r).

(** [eval(v)] in the frame [fr]. *)
Definition eval (fr : frame) (v : pyvalue) : M pyvalue :=
  fun s =>
    let '(w, holder, r) := py_eval R fr v (widgets s) (inputs s) in
    (State w holder, r).

(** ** [_connect_func], lines 79-102 *)

Definition _connect_func (reverse : bool) (key_arg : string) (item_arg : item)
    (get_method set_method : string) : M unit :=
  if negb reverse then
    f <- getattr_item item_arg get_method ;;
    v <- call f [] ;;
    setattr_inputs key_arg v
  else
    try_except_TypeError
      (f <- getattr_item item_arg set_method ;;
       v <- getattr_inputs key_arg ;;
       _ <- call f [v] ;;
       ret tt)
      (f <- getattr_item item_arg set_method ;;
       v <- getattr_inputs key_arg ;;
       v' <- eval (Frame reverse key_arg item_arg get_method set_method) v ;;
       _ <- call f [v'] ;;
       ret tt).

(** ** The accessor table *)

(** A value of [func_dict]: the list [[connect_func, key, item]]. *)
Record entry : Type := Entry {
  e_connect : bool -> string -> item -> M unit;
  e_key : string;
  e_item : item
}.

(** [func_dict] keeps insertion order; [d[key] = v] replaces the value of
    an existing key in place and appends a new key at the end. *)
Fixpoint dict_set (key : string) (v : entry) (d : list (string * entry))
    : list (string * entry) :=
  match d with
  | [] => [(key, v)]
  | (k, w) :: d' =>
      if String.eqb k key then (k, v) :: d' else (k, w) :: dict_set key v d'
  end.

Definition dict_values (d : list (string * entry)) : list entry := d.*2.

(** The [if]/[elif] chain of lines 113-122: the closure bound to
    [connect_func], or nothing when the [else: continue] branch is taken. *)
Definition select_connect_func (it : item)
    : option (bool -> string -> item -> M unit) :=
  let check_type type_arg := _check_type type_arg it in
  if check_type "QLineEdit" then
    Some (fun r k i => _connect_func r k i "text" "setText")
  else if check_type "QComboBox" then
    Some (fun r k i => _connect_func r k i "currentText" "setCurrentText")
  else if check_type "QSpinBox" then
    Some (fun r k i => _connect_func r k i "value" "setValue")
  else if check_type "QCheckBox" then
    Some (fun r k i => _connect_func r k i "isChecked" "setChecked")
  else None.

(** The loop of lines 107-125 over [gui.__dict__.items()], with
    [func_dict] as accumulator.  [key[0]] raises [IndexError] on the empty
    name. *)
Fixpoint connect_gui_loop (attrs : list (string * item))
    (func_dict : list (string * entry)) : result (list (string * entry)) :=
  match attrs with
  | [] => Ok func_dict
  | (key, it) :: rest =>
      match key with
      | EmptyString => Raise IndexError
      | String c _ =>
          if Ascii.eqb c "_"%char then connect_gui_loop rest func_dict
          else
            match select_connect_func it with
            | Some connect_func =>
                connect_gui_loop rest
                  (dict_set key (Entry connect_func key it) func_dict)
            | None => connect_gui_loop rest func_dict
            end
      end
  end.

(** [_connect_gui], lines 54-126.  The [inputs] argument of the source is
    the data holder of the state. *)
Definition _connect_gui (gui : list (string * item))
    : result (list (string * entry)) :=
  connect_gui_loop gui [].

(** ** [_get_connect_funcs], lines 129-142 *)

(** The list comprehension [[f(x) for x in l]]: the first exception ends
    it. *)
Fixpoint comprehension {A B} (f : A -> M B) (l : list A) : M (list B) :=
  match l with
  | [] => ret []
  | x :: l' =>
      y <- f x ;;
      ys <- comprehension f l' ;;
      ret (y :: ys)
  end.

Definition run_all (reverse : bool) (input_field_dict : list (string * entry))
    : M unit :=
  _ <- comprehension (fun e => e_connect e reverse (e_key e) (e_item e))
         (dict_values input_field_dict) ;;
  ret tt.

Definition _get_connect_funcs (input_field_dict : list (string * entry))
    : M unit * M unit :=
  (run_all false input_field_dict, run_all true input_field_dict).

(** ** [IOHandler.__init__], lines 31-51 *)

(** [init_inputs] is [self.inputs] as construction finds or creates it;
    [accessor_table] is the local [_input_dict], kept to speak about it. *)
Record IOHandler : Type := Handler {
  init_inputs : gmap string pyvalue;
  accessor_table : list (string * entry);
  fields_to_inputs : M unit;
  inputs_to_fields : M unit
}.

Definition IOHandler_init (QtWindow : list (string * item))
    (input_object : option (gmap string pyvalue)) : result IOHandler :=
  let inputs0 := match input_object with None => ∅ | Some o => o end in
  match _connect_gui QtWindow with
  | Ok _input_dict =>
      let '(f2i, i2f) := _get_connect_funcs _input_dict in
      Ok (Handler inputs0 _input_dict f2i i2f)
  | Raise e => Raise e
  end.

End Program.

Arguments State {R} _ _.
Arguments widgets {R} _.
Arguments inputs {R} _.
Arguments Entry {R} _ _ _.
Arguments e_connect {R} _ _ _ _ _.
Arguments e_key {R} _.
Arguments e_item {R} _.

(** ** Vocabulary of the properties *)

(** A name that starts with the exclusion marker. *)
Definition excluded (key : string) : bool :=
  match key with
  | String c _ => Ascii.eqb c "_"%char
  | EmptyString => false
  end.

(** The accessor pair that [input_types] gives to a class name. *)
Definition lookup_kind (c : string) : option (string * string) :=
  snd <$> List.find (fun p => String.eqb p.1 c) input_types.

Section Invariants.

Variable R : runtime.

(** The closure that lines 113-120 build for an accessor pair. *)
Definition closure_of (gs : string * string)
    : bool -> string -> item -> M R unit :=
  fun r k i => _connect_func R r k i gs.1 gs.2.

(** [e] is the entry built for attribute [key] holding [it]. *)
Definition entry_for (key : string) (it : item) (e : entry R) : Prop :=
  e_key e = key /\ e_item e = it /\
  exists gs, lookup_kind (cls it) = Some gs /\ e_connect e = closure_of gs.

(** The shape of the entries that construction builds. *)
Definition built (ke : string * entry R) : Prop :=
  e_key ke.2 = ke.1 /\
  exists gs, lookup_kind (cls (e_item ke.2)) = Some gs /\
             e_connect ke.2 = closure_of gs.

(** Every entry of [tbl] was built from a public attribute of [gui] of a
    supported kind, and no key occurs twice. *)
Definition table_ok (gui : list (string * item))
    (tbl : list (string * entry R)) : Prop :=
  NoDup tbl.*1 /\
  Forall (fun ke => excluded ke.1 = false /\
                    exists it, (ke.1, it) ∈ gui /\ entry_for ke.1 it ke.2) tbl.

(** The outcome of the [except TypeError:] branch (line 102) of the call
    with local variables [fr], entered in world [w1] with the holder's
    attributes [holder]: evaluate the stored value, then write the result
    once more, in the world the evaluation left. *)
Definition retry_write (fr : frame) (v : pyvalue)
    (w1 : world R) (holder : gmap string pyvalue) : state R * result unit :=
  match py_eval R fr v w1 holder with
  | (w2, holder2, Raise e) => (State w2 holder2, Raise e)
  | (w2, holder2, Ok v') =>
      match call_method R (f_item_arg fr) (f_set_method fr) [v'] w2 with
      | (w3, Ok _) => (State w3 holder2, Ok tt)
      | (w3, Raise e) => (State w3 holder2, Raise e)
      end
  end.

(** In world [w] the widget [it] can be read, and writing the value just
    read is accepted and changes nothing. *)
Definition reads_back (w : world R) (it : item) : Prop :=
  forall g st, lookup_kind (cls it) = Some (g, st) ->
    has_method R it g = true /\ has_method R it st = true /\
    exists v r, call_method R it g [] w = (w, Ok v) /\
                call_method R it st [v] w = (w, Ok r).

(** Calling the read accessor of a widget's kind changes no widget. *)
Definition reads_are_pure : Prop :=
  forall it g st w, lookup_kind (cls it) = Some (g, st) ->
    (call_method R it g [] w).1 = w.

(** What one pass of the loop of lines 107-125 contributes for an
    attribute: nothing for a private name or an unsupported class, else
    the entry [[connect_func, key, item]] under the attribute's name. *)
Definition entry_of (ki : string * item) : option (string * entry R) :=
  if excluded ki.1 then None
  else (fun gs => (ki.1, Entry (closure_of gs) ki.1 ki.2))
         <$> lookup_kind (cls ki.2).

End Invariants.

(** ** An executable runtime

    A small simulation of the four widget kinds and of the fragment of
    [eval] that the examples use.  It is one instance of [runtime]; the
    general properties below hold for every instance. *)
Module Sim.

(** Inheritance: an object answers as the first supported class among its
    own class and the classes it inherits from. *)
Definition kind_of (it : item) : option string :=
  List.find (fun c => existsb (String.eqb c) supported_kinds)
            (cls it :: bases it).

Definition accessors (it : item) : option (string * string) :=
  match kind_of it with
  | Some k => lookup_kind k
  | None => None
  end.

Definition sim_has_method (it : item) (name : string) : bool :=
  match accessors it with
  | Some (g, s) => String.eqb name g || String.eqb name s
  | None => false
  end.

(** The value a setter stores, when the binding accepts the argument:
    text for the text and choice inputs; an integer (a boolean counts as
    one) kept within the default range 0..99 for the stepper; a boolean or
    a number for the toggle. *)
Definition accept (kind : string) (v : pyvalue) : option pyvalue :=
  if String.eqb kind "QLineEdit" || String.eqb kind "QComboBox" then
    match v with VStr _ => Some v | _ => None end
  else if String.eqb kind "QSpinBox" then
    match v with
    | VInt n => Some (VInt (Z.max 0 (Z.min 99 n)))
    | VBool b => Some (VInt (Z.b2z b))
    | _ => None
    end
  else if String.eqb kind "QCheckBox" then
    match v with
    | VBool _ => Some v
    | VInt n => Some (VBool (negb (Z.eqb n 0)))
    | _ => None
    end
  else None.

Definition wrong_arguments (name : string) : exn :=
  TypeError (name +:+ " called with wrong argument types").

(** The world maps the address of each live widget to its current value. *)
Definition sim_call (it : item) (name : string) (args : list pyvalue)
    (w : gmap nat pyvalue) : gmap nat pyvalue * result pyvalue :=
  match kind_of it, accessors it with
  | Some k, Some (g, s) =>
      if String.eqb name g then
        match args, w !! addr it with
        | [], Some v => (w, Ok v)
        | [], None => (w, Raise (OtherError "RuntimeError"))
        | _, _ => (w, Raise (wrong_arguments name))
        end
      else if String.eqb name s then
        match args, w !! addr it with
        | [v], Some _ =>
            match accept k v with
            | Some v' => (<[addr it := v']> w, Ok VNone)
            | None => (w, Raise (wrong_arguments name))
            end
        | [_], None => (w, Raise (OtherError "RuntimeError"))
        | _, _ => (w, Raise (wrong_arguments name))
        end
      else (w, Raise (AttributeError name))
  | _, _ => (w, Raise (AttributeError name))
  end.

Definition digit_of (c : ascii) : option Z :=
  let n := Z.of_N (N_of_ascii c) in
  if (48 <=? n)%Z && (n <=? 57)%Z then Some (n - 48)%Z else None.

Fixpoint parse_digits (s : string) (acc : Z) : option Z :=
  match s with
  | EmptyString => Some acc
  | String c s' =>
      match digit_of c with
      | Some d => parse_digits s' (10 * acc + d)%Z
      | None => None
      end
  end.

(** A decimal literal without leading zero. *)
Definition parse_int_literal (s : string) : option Z :=
  match s with
  | EmptyString => None
  | String c s' =>
      if Ascii.eqb c "0"%char then
        match s' with EmptyString => Some 0%Z | _ => None end
      else parse_digits s 0
  end.

(** Names used in the examples that are bound neither in [main.py] nor
    among the built-ins. *)
Definition free_names : list string := ["maybe"].

(** [eval] on the constants [True], [False], [None], on decimal literals
    and on the free names above; a non-string argument is a [TypeError].
    Every other expression is outside the fragment. *)
Definition sim_eval (v : pyvalue) : result pyvalue :=
  match v with
  | VStr s =>
      if String.eqb s "True" then Ok (VBool true)
      else if String.eqb s "False" then Ok (VBool false)
      else if String.eqb s "None" then Ok VNone
      else if existsb (String.eqb s) free_names then Raise (NameError s)
      else
        match parse_int_literal s with
        | Some n => Ok (VInt n)
        | None => Raise (OtherError "expression outside the fragment")
        end
  | _ => Raise (TypeError "eval() arg 1 must be a string, bytes or code object")
  end.

(** [eval] inside [_connect_func]: besides the fragment above, one
    expression that reads a local variable and one that writes the data
    holder ([setattr] returns [None], so the value is that of the right
    operand). *)
Definition sim_eval_in (fr : frame) (v : pyvalue) (w : gmap nat pyvalue)
    (holder : gmap string pyvalue)
    : gmap nat pyvalue * gmap string pyvalue * result pyvalue :=
  match v with
  | VStr s =>
      if String.eqb s "key_arg" then (w, holder, Ok (VStr (f_key_arg fr)))
      else if String.eqb s "setattr(inputs, 'verbose', True) or 5" then
        (w, <["verbose" := VBool true]> holder, Ok (VInt 5))
      else (w, holder, sim_eval v)
  | _ => (w, holder, sim_eval v)
  end.

Definition rt : runtime :=
  Runtime (gmap nat pyvalue) sim_has_method sim_call sim_eval_in.

(** *** A window

    The scenario of the specification (a text input [username] showing
    [alice], a stepper [retries] at 3), extended with a toggle, a private
    attribute, a label, and a widget of a class derived from the toggle. *)
Definition w_username : item := Item 0 "QLineEdit" ["QWidget"].
Definition w_retries : item := Item 1 "QSpinBox" ["QAbstractSpinBox"; "QWidget"].
Definition w_verbose : item := Item 2 "QCheckBox" ["QAbstractButton"; "QWidget"].
Definition w_private : item := Item 3 "QLineEdit" ["QWidget"].
Definition w_label : item := Item 4 "QLabel" ["QFrame"; "QWidget"].
Definition w_fancy : item := Item 5 "FancyCheckBox" ["QCheckBox"; "QAbstractButton"; "QWidget"].

Definition window : list (string * item) :=
  [ ("username", w_username);
    ("_secret", w_private);
    ("retries", w_retries);
    ("title", w_label);
    ("verbose", w_verbose);
    ("fancy", w_fancy) ].

Definition world0 : gmap nat pyvalue :=
  <[0%nat := VStr "alice"]>
  (<[1%nat := VInt 3]>
  (<[2%nat := VBool false]>
  (<[3%nat := VStr "hidden"]>
  (<[4%nat := VStr "Settings"]>
  (<[5%nat := VBool false]> ∅))))).

Definition st (w : gmap nat pyvalue) (holder : gmap string pyvalue)
    : state rt :=
  State (R := rt) w holder.

Definition start (holder : gmap string pyvalue) : state rt := st world0 holder.

Definition table_keys (gui : list (string * item)) : result (list string) :=
  match _connect_gui rt gui with
  | Ok d => Ok d.*1
  | Raise e => Raise e
  end.

(** The accessor table and the handler that construction yields for
    [window]. *)
Definition e_username : entry rt :=
  Entry (closure_of rt ("text", "setText")) "username" w_username.
Definition e_retries : entry rt :=
  Entry (closure_of rt ("value", "setValue")) "retries" w_retries.
Definition e_verbose : entry rt :=
  Entry (closure_of rt ("isChecked", "setChecked")) "verbose" w_verbose.

Definition table : list (string * entry rt) :=
  [ ("username", e_username); ("retries", e_retries); ("verbose", e_verbose) ].

Definition handler : IOHandler rt :=
  Handler rt ∅ table (run_all rt false table) (run_all rt true table).

(** *** Data holders *)

(** Every field present; the toggle as a settings file stores it. *)
Definition holder_saved : gmap string pyvalue :=
  <["username" := VStr "bob"]>
  (<["retries" := VInt 5]>
  (<["verbose" := VStr "True"]> ∅)).

(** No attribute for the stepper. *)
Definition holder_missing : gmap string pyvalue :=
  <["username" := VStr "bob"]>
  (<["verbose" := VBool true]> ∅).

(** A toggle value that is no Python expression with a value. *)
Definition holder_maybe : gmap string pyvalue :=
  <["username" := VStr "bob"]>
  (<["retries" := VInt 5]>
  (<["verbose" := VStr "maybe"]> ∅)).

(** No attribute for the toggle; the stepper's stored text is an
    expression that gives the holder one. *)
Definition holder_setattr : gmap string pyvalue :=
  <["username" := VStr "bob"]>
  (<["retries" := VStr "setattr(inputs, 'verbose', True) or 5"]> ∅).

(** *** Worlds *)

(** [world0] after [username] was set to [bob]. *)
Definition world_bob : gmap nat pyvalue := <[0%nat := VStr "bob"]> world0.

(** ... and [retries] to 5. *)
Definition world_bob5 : gmap nat pyvalue := <[1%nat := VInt 5]> world_bob.

(** ... and [verbose] checked. *)
Definition world_bob5_checked : gmap nat pyvalue :=
  <[2%nat := VBool true]> world_bob5.

(** [world0] once the stepper widget has been destroyed. *)
Definition world_no_stepper : gmap nat pyvalue := delete 1%nat world0.

(** *** Objects that only carry a widget's class name

    A second runtime in which an object that inherits from no toolkit
    class has no accessor at all, whatever its class is called. *)
Definition strict_has_method (it : item) (name : string) : bool :=
  match bases it with
  | [] => false
  | _ :: _ => sim_has_method it name
  end.

Definition rt_strict : runtime :=
  Runtime (gmap nat pyvalue) strict_has_method sim_call sim_eval_in.

Definition w_notes : item := Item 7 "QLineEdit" [].

Definition window_notes : list (string * item) :=
  [ ("username", w_username); ("notes", w_notes) ].

Definition e_username_strict : entry rt_strict :=
  Entry (closure_of rt_strict ("text", "setText")) "username" w_username.
Definition e_notes_strict : entry rt_strict :=
  Entry (closure_of rt_strict ("text", "setText")) "notes" w_notes.

Definition handler_notes : IOHandler rt_strict :=
  let tbl := [ ("username", e_username_strict); ("notes", e_notes_strict) ] in
  Handler rt_strict ∅ tbl (run_all rt_strict false tbl)
          (run_all rt_strict true tbl).

(** A window without any public widget of a supported kind. *)
Definition window_plain : list (string * item) :=
  [ ("_secret", w_private); ("title", w_label); ("fancy", w_fancy) ].

End Sim.

(** Tactics for running the program on the simulated window. *)
Ltac sim_kind :=
  let g := fresh "g" in let st := fresh "st" in let H := fresh "H" in
  intros g st H; vm_compute in H; injection H as <- <-.

Ltac sim_run := vm_compute; reflexivity.

Example sim_table_keys :
  Sim.table_keys Sim.window = Ok ["username"; "retries"; "verbose"].
Proof. reflexivity. Qed.

Example sim_handler : IOHandler_init Sim.rt Sim.window None = Ok Sim.handler.
Proof. reflexivity. Qed.

(** The scenario of the specification: reading the widgets into a fresh
    holder, ... *)
Example sim_fields_to_inputs :
  fields_to_inputs Sim.rt Sim.handler (Sim.start ∅)
  = (Sim.start (<["verbose" := VBool false]>
                (<["retries" := VInt 3]>
                (<["username" := VStr "alice"]> ∅))), Ok tt).
Proof. vm_compute. reflexivity. Qed.

(** ... and writing a changed holder back, the toggle through the retry. *)
Example sim_inputs_to_fields :
  inputs_to_fields Sim.rt Sim.handler (Sim.start Sim.holder_saved)
  = (Sim.st Sim.world_bob5_checked Sim.holder_saved, Ok tt).
Proof. vm_compute. reflexivity. Qed.

Example sim_inputs_to_fields_missing :
  inputs_to_fields Sim.rt Sim.handler (Sim.start Sim.holder_missing)
  = (Sim.st Sim.world_bob Sim.holder_missing, Raise (AttributeError "retries")).
Proof. vm_compute. reflexivity. Qed.

Example sim_inputs_to_fields_maybe :
  inputs_to_fields Sim.rt Sim.handler (Sim.start Sim.holder_maybe)
  = (Sim.st Sim.world_bob5 Sim.holder_maybe, Raise (NameError "maybe")).
Proof. vm_compute. reflexivity. Qed.

(** The retry's evaluation can give the holder an attribute it lacked:
    the toggle, missing at the start, is there when its entry comes. *)
Example sim_inputs_to_fields_eval_writes_holder :
  Sim.holder_setattr !! "verbose" = None /\
  inputs_to_fields Sim.rt Sim.handler (Sim.start Sim.holder_setattr)
  = (Sim.st Sim.world_bob5_checked
       (<["verbose" := VBool true]> Sim.holder_setattr), Ok tt).
Proof. split; vm_compute; reflexivity. Qed.

Example sim_inputs_to_fields_destroyed :
  inputs_to_fields Sim.rt Sim.handler (Sim.st Sim.world_no_stepper Sim.holder_saved)
  = (Sim.st (<[0%nat := VStr "bob"]> Sim.world_no_stepper) Sim.holder_saved,
     Raise (OtherError "RuntimeError")).
Proof. vm_compute. reflexivity. Qed.

(** * Properties *)

#[local] Arguments String.eqb : simpl never.
#[local] Arguments Ascii.eqb : simpl never.
#[local] Arguments lookup_kind : simpl never.

(** ** Construction of the accessor table *)
Section Construction.

Variable R : runtime.
Implicit Types (gui attrs : list (string * item)).
Implicit Types (tbl acc : list (string * entry R)).

Lemma check_type_eq (t : string) (it : item) :
  _check_type t it = true <-> cls it = t.
Proof.
  unfold _check_type.
  destruct (String.eqb_spec (cls it) t); simpl; split; congruence.
Qed.

(** The [if]/[elif] chain dispatches exactly as [input_types] lists. *)
Lemma select_connect_func_lookup (it : item) :
  select_connect_func R it = closure_of R <$> lookup_kind (cls it).
Proof.
  unfold select_connect_func, _check_type, lookup_kind, input_types.
  cbn [List.find fst snd].
  rewrite !(String.eqb_sym (cls it)).
  repeat (match goal with
          | |- context [String.eqb ?a (cls it)] =>
              destruct (String.eqb a (cls it)); cbn [negb]; try reflexivity
          end).
Qed.

Lemma lookup_kind_supported (c : string) :
  is_Some (lookup_kind c) <-> c ∈ supported_kinds.
Proof.
  unfold lookup_kind, supported_kinds, input_types.
  cbn [List.find fst snd fmap list_fmap].
  split.
  - repeat (match goal with
            | |- context [String.eqb ?a c] =>
                destruct (String.eqb_spec a c) as [<-|?]; [intros _; set_solver|]
            end).
    intros [? ?]. discriminate.
  - intros H.
    repeat (apply elem_of_cons in H as [->|H]; [compute; eauto|]).
    by apply elem_of_nil in H.
Qed.

Lemma lookup_kind_unsupported (c : string) :
  c ∉ supported_kinds -> lookup_kind c = None.
Proof.
  intros H. destruct (lookup_kind c) eqn:E; [|done].
  exfalso. apply H, lookup_kind_supported. eauto.
Qed.

Lemma excluded_nonempty (key : string) : excluded key = true -> key <> "".
Proof. by destruct key. Qed.

(** *** [func_dict[key] = v] *)

Lemma elem_of_dict_set_keys (k key : string) (v : entry R) tbl :
  k ∈ (dict_set R key v tbl).*1 <-> k = key \/ k ∈ tbl.*1.
Proof.
  induction tbl as [|[k0 w] d IH]; cbn.
  - rewrite list_elem_of_singleton. rewrite elem_of_nil. tauto.
  - destruct (String.eqb_spec k0 key) as [->|Hne]; cbn;
      rewrite !elem_of_cons; [tauto|]. rewrite IH. tauto.
Qed.

Lemma NoDup_dict_set (key : string) (v : entry R) tbl :
  NoDup tbl.*1 -> NoDup (dict_set R key v tbl).*1.
Proof.
  induction tbl as [|[k0 w] d IH]; cbn; intros Hnd.
  - apply NoDup_singleton.
  - apply NoDup_cons in Hnd as [Hk0 Hd].
    destruct (String.eqb_spec k0 key) as [->|Hne]; cbn.
    + by apply NoDup_cons.
    + apply NoDup_cons. split; [|by apply IH].
      rewrite elem_of_dict_set_keys. intros [?|?]; congruence.
Qed.

Lemma Forall_dict_set (P : string * entry R -> Prop) (key : string)
    (v : entry R) tbl :
  P (key, v) -> Forall P tbl -> Forall P (dict_set R key v tbl).
Proof.
  intros Hv. induction 1 as [|[k0 w] d Hx Hd IH]; cbn.
  - by repeat constructor.
  - destruct (String.eqb_spec k0 key) as [->|Hne]; by constructor.
Qed.

(** *** The loop keeps the table well formed *)

Lemma connect_gui_loop_ok gui attrs acc tbl :
  attrs ⊆ gui -> table_ok R gui acc ->
  connect_gui_loop R attrs acc = Ok tbl -> table_ok R gui tbl.
Proof.
  revert acc. induction attrs as [|[key it] rest IH]; intros acc Hsub Hacc; cbn.
  - by intros [= <-].
  - assert (Hrest : rest ⊆ gui) by set_solver.
    assert (Hin : (key, it) ∈ gui) by set_solver.
    destruct key as [|c key']; [discriminate|].
    destruct (Ascii.eqb c "_") eqn:Hc; [by apply IH|].
    rewrite select_connect_func_lookup.
    destruct (lookup_kind (cls it)) as [gs|] eqn:Hk; cbn; [|by apply IH].
    apply IH; [done|].
    destruct Hacc as [Hnd Hall]. split.
    + by apply NoDup_dict_set.
    + apply Forall_dict_set; [|done]. cbn. split; [done|].
      exists it. split; [done|]. repeat split. by exists gs.
Qed.

Lemma connect_gui_ok gui tbl :
  _connect_gui R gui = Ok tbl -> table_ok R gui tbl.
Proof.
  apply connect_gui_loop_ok; [done|].
  split; [apply NoDup_nil_2 | constructor].
Qed.

(** An attribute that line 108 or line 122 passes over leaves no trace. *)
Lemma connect_gui_loop_skip (pre post : list (string * item)) key it acc :
  key <> "" ->
  excluded key = true \/ lookup_kind (cls it) = None ->
  connect_gui_loop R (pre ++ (key, it) :: post) acc
  = connect_gui_loop R (pre ++ post) acc.
Proof.
  intros Hne Hskip. revert acc.
  induction pre as [|[k0 i0] pre IH]; intros acc; cbn.
  - destruct key as [|c key']; [done|]. cbn in Hskip.
    destruct (Ascii.eqb c "_"); [done|].
    destruct Hskip as [?|Hk]; [done|].
    by rewrite select_connect_func_lookup, Hk.
  - destruct k0 as [|c0 k0']; [done|].
    destruct (Ascii.eqb c0 "_"); [apply IH|].
    destruct (select_connect_func R i0); apply IH.
Qed.

Lemma table_key_public gui tbl (key : string) :
  table_ok R gui tbl -> key ∈ tbl.*1 -> excluded key = false.
Proof.
  intros [_ Hall] Hin.
  apply list_elem_of_fmap in Hin as [[k e] [-> Hin]].
  rewrite Forall_forall in Hall. by destruct (Hall _ Hin) as [? _].
Qed.

Lemma table_key_supported gui tbl (key : string) :
  table_ok R gui tbl -> key ∈ tbl.*1 ->
  exists it, (key, it) ∈ gui /\ cls it ∈ supported_kinds.
Proof.
  intros [_ Hall] Hin.
  apply list_elem_of_fmap in Hin as [[k e] [-> Hin]].
  rewrite Forall_forall in Hall.
  destruct (Hall _ Hin) as [_ (it & Hit & _ & _ & gs & Hk & _)].
  exists it. split; [done|]. apply lookup_kind_supported. eauto.
Qed.

Lemma IOHandler_init_inv gui o (h : IOHandler R) :
  IOHandler_init R gui o = Ok h ->
  _connect_gui R gui = Ok (accessor_table R h) /\
  table_ok R gui (accessor_table R h) /\
  fields_to_inputs R h = run_all R false (accessor_table R h) /\
  inputs_to_fields R h = run_all R true (accessor_table R h).
Proof.
  unfold IOHandler_init.
  destruct (_connect_gui R gui) as [tbl|e] eqn:E; [|discriminate].
  cbn. intros [= <-]. cbn. eauto using connect_gui_ok.
Qed.

End Construction.

(** ** The per-widget closure and the bulk operations *)
Section Synchronisation.

Variable R : runtime.
Implicit Types (s : state R) (tbl pre post : list (string * entry R)).

Lemma state_eta s : State (widgets s) (inputs s) = s.
Proof. by destruct s. Qed.

(** [_connect_func(False, ...)]: read the widget, store into the holder. *)
Lemma connect_func_read (key : string) (it : item) (g st : string) s :
  _connect_func R false key it g st s =
  if has_method R it g then
    match call_method R it g [] (widgets s) with
    | (w, Ok v) => (State w (<[key := v]> (inputs s)), Ok tt)
    | (w, Raise e) => (State w (inputs s), Raise e)
    end
  else (s, Raise (AttributeError g)).
Proof.
  unfold _connect_func, bind, getattr_item, call, setattr_inputs. cbn.
  destruct (has_method R it g); [|done].
  cbn. destruct (call_method R it g [] (widgets s)) as [w [v|e]]; reflexivity.
Qed.

(** [_connect_func(True, ...)]: every path through lines 97-102. *)
Lemma connect_func_write (key : string) (it : item) (g st : string) s :
  _connect_func R true key it g st s =
  if has_method R it st then
    match inputs s !! key with
    | None => (s, Raise (AttributeError key))
    | Some v =>
        match call_method R it st [v] (widgets s) with
        | (w1, Ok _) => (State w1 (inputs s), Ok tt)
        | (w1, Raise e) =>
            if is_TypeError e then
              retry_write R (Frame true key it g st) v w1 (inputs s)
            else (State w1 (inputs s), Raise e)
        end
    end
  else (s, Raise (AttributeError st)).
Proof.
  unfold _connect_func, try_except_TypeError, bind, getattr_item,
    getattr_inputs, call, eval, ret, retry_write. cbn.
  destruct (has_method R it st) eqn:Hm; cbn; [|done].
  destruct (inputs s !! key) as [v|] eqn:Hv; cbn; [|done].
  destruct (call_method R it st [v] (widgets s)) as [w1 [r|e]]; cbn;
    [reflexivity|].
  destruct (is_TypeError e); [|reflexivity].
  rewrite ?Hm; cbn; rewrite ?Hv; cbn.
  destruct (py_eval R (Frame true key it g st) v w1 (inputs s))
    as [[w2 holder2] [v'|e']]; cbn; [|reflexivity].
  destruct (call_method R it st [v'] w2) as [w3 [r|e2]]; reflexivity.
Qed.

(** *** The list comprehension *)

Lemma run_all_nil (r : bool) s : run_all R r [] s = (s, Ok tt).
Proof. reflexivity. Qed.

Lemma run_all_cons (r : bool) (k : string) (e : entry R) tbl s :
  run_all R r ((k, e) :: tbl) s =
  match e_connect e r (e_key e) (e_item e) s with
  | (s1, Ok _) => run_all R r tbl s1
  | (s1, Raise ex) => (s1, Raise ex)
  end.
Proof.
  unfold run_all, dict_values, bind. cbn. unfold bind.
  destruct (e_connect e r (e_key e) (e_item e) s) as [s1 [[]|ex]];
    [|reflexivity].
  destruct (comprehension R _ tbl.*2 s1) as [s2 [ys|ex]]; reflexivity.
Qed.

Lemma run_all_app (r : bool) pre post s :
  run_all R r (pre ++ post) s =
  match run_all R r pre s with
  | (s1, Ok _) => run_all R r post s1
  | (s1, Raise ex) => (s1, Raise ex)
  end.
Proof.
  revert s. induction pre as [|[k e] pre IH]; intros s.
  - by rewrite run_all_nil.
  - rewrite <- app_comm_cons, !run_all_cons.
    by destruct (e_connect e r (e_key e) (e_item e) s) as [s1 [[]|ex]].
Qed.


End Synchronisation.

(** ** [inputs_to_fields] *)
Section InputsToFields.

Variable R : runtime.
Implicit Types (s : state R) (pre post : list (string * entry R)).

Lemma table_entry_inv (gui : list (string * item))
    (tbl : list (string * entry R)) (k : string) (e : entry R) :
  table_ok R gui tbl -> (k, e) ∈ tbl ->
  e_key e = k /\
  exists gs, lookup_kind (cls (e_item e)) = Some gs /\
             e_connect e = closure_of R gs.
Proof.
  intros [_ Hall] Hin. rewrite Forall_forall in Hall.
  destruct (Hall _ Hin) as [_ (it & _ & Hk & Hi & gs & Hgs & Hc)].
  cbn in *. subst it. eauto.
Qed.

(** Once the entries before [(k, e)] have been processed, the call goes on
    with the closure of [e] and, if that returns, with the rest. *)
Lemma inputs_to_fields_step (gui : list (string * item))
    (o : option (gmap string pyvalue)) (h : IOHandler R) pre post
    (k : string) (e : entry R) (g st : string) s s1 :
  IOHandler_init R gui o = Ok h ->
  accessor_table R h = pre ++ (k, e) :: post ->
  lookup_kind (cls (e_item e)) = Some (g, st) ->
  run_all R true pre s = (s1, Ok tt) ->
  inputs_to_fields R h s =
  match _connect_func R true k (e_item e) g st s1 with
  | (s2, Ok _) => run_all R true post s2
  | (s2, Raise ex) => (s2, Raise ex)
  end.
Proof.
  intros (_ & Hok & _ & ->)%IOHandler_init_inv Htbl Hk Hpre.
  destruct (table_entry_inv gui _ k e Hok) as (Hkey & gs & Hgs & Hc).
  { rewrite Htbl. apply elem_of_app. right. apply list_elem_of_here. }
  rewrite Htbl, run_all_app, Hpre, run_all_cons, Hc, Hkey.
  rewrite Hk in Hgs. by injection Hgs as <-.
Qed.

(** C3. When [inputs_to_fields] comes to an entry of the accessor table,
    the entries before it done, and the data holder has at that moment no
    attribute of the widget's name, the call raises the attribute error
    that names the widget; this error reaches the caller, in the state the
    earlier entries left. *)
Theorem missing_field_error (gui : list (string * item))
    (o : option (gmap string pyvalue)) (h : IOHandler R) pre post
    (k : string) (e : entry R) s s1 :
  IOHandler_init R gui o = Ok h ->
  accessor_table R h = pre ++ (k, e) :: post ->
  (forall g st, lookup_kind (cls (e_item e)) = Some (g, st) ->
                has_method R (e_item e) st = true) ->
  run_all R true pre s = (s1, Ok tt) ->
  inputs s1 !! k = None ->
  inputs_to_fields R h s = (s1, Raise (AttributeError k)).
Proof.
  intros Hinit Htbl Hm Hpre Hmiss.
  pose proof Hinit as (_ & Hok & _ & _)%IOHandler_init_inv.
  destruct (table_entry_inv gui _ k e Hok) as (_ & [g st] & Hgs & _).
  { rewrite Htbl. apply elem_of_app. right. apply list_elem_of_here. }
  rewrite (inputs_to_fields_step gui o h pre post k e g st s s1) by done.
  by rewrite connect_func_write, (Hm g st Hgs), Hmiss.
Qed.


(** C2. When the direct write of the stored value raises a type error,
    the stored value is evaluated and the write is retried once with the
    result; if that write is accepted the entry is done without error, the
    widget holds what the second write made of the parsed value, and the
    call goes on with the remaining entries. *)
Theorem coercion_fallback (gui : list (string * item))
    (o : option (gmap string pyvalue)) (h : IOHandler R) pre post
    (k : string) (e : entry R) (g st : string) s s1
    (v v' r : pyvalue) (msg : string) (w1 w2 w3 : world R)
    (holder2 : gmap string pyvalue) :
  IOHandler_init R gui o = Ok h ->
  accessor_table R h = pre ++ (k, e) :: post ->
  run_all R true pre s = (s1, Ok tt) ->
  lookup_kind (cls (e_item e)) = Some (g, st) ->
  has_method R (e_item e) st = true ->
  inputs s1 !! k = Some v ->
  call_method R (e_item e) st [v] (widgets s1) = (w1, Raise (TypeError msg)) ->
  py_eval R (Frame true k (e_item e) g st) v w1 (inputs s1)
    = (w2, holder2, Ok v') ->
  call_method R (e_item e) st [v'] w2 = (w3, Ok r) ->
  _connect_func R true k (e_item e) g st s1 = (State w3 holder2, Ok tt) /\
  inputs_to_fields R h s = run_all R true post (State w3 holder2).
Proof.
  intros Hinit Htbl Hpre Hk Hm Hv Hc1 Hev Hc2.
  assert (Hf : _connect_func R true k (e_item e) g st s1
               = (State w3 holder2, Ok tt)).
  { rewrite connect_func_write, Hm, Hv, Hc1. cbn.
    unfold retry_write. rewrite Hev. cbn. by rewrite Hc2. }
  split; [done|].
  by rewrite (inputs_to_fields_step gui o h pre post k e g st s s1), Hf.
Qed.

(** C8, as the code has it. When the retry fails as well, the exception
    that the evaluation or the second write raised reaches the caller
    unchanged, whatever its class and message; nothing is added to it. *)
Theorem retry_failure_propagates_unchanged (gui : list (string * item))
    (o : option (gmap string pyvalue)) (h : IOHandler R) pre post
    (k : string) (e : entry R) (g st : string) s s1
    (v : pyvalue) (msg : string) (w1 : world R) :
  IOHandler_init R gui o = Ok h ->
  accessor_table R h = pre ++ (k, e) :: post ->
  run_all R true pre s = (s1, Ok tt) ->
  lookup_kind (cls (e_item e)) = Some (g, st) ->
  has_method R (e_item e) st = true ->
  inputs s1 !! k = Some v ->
  call_method R (e_item e) st [v] (widgets s1) = (w1, Raise (TypeError msg)) ->
  (forall w2 holder2 e',
     py_eval R (Frame true k (e_item e) g st) v w1 (inputs s1)
       = (w2, holder2, Raise e') ->
     inputs_to_fields R h s = (State w2 holder2, Raise e')) /\
  (forall w2 holder2 v' w3 e',
     py_eval R (Frame true k (e_item e) g st) v w1 (inputs s1)
       = (w2, holder2, Ok v') ->
     call_method R (e_item e) st [v'] w2 = (w3, Raise e') ->
     inputs_to_fields R h s = (State w3 holder2, Raise e')).
Proof.
  intros Hinit Htbl Hpre Hk Hm Hv Hc1.
  split; [intros w2 holder2 e' Hev | intros w2 holder2 v' w3 e' Hev Hc2];
    rewrite (inputs_to_fields_step gui o h pre post k e g st s s1) by done;
    rewrite connect_func_write, Hm, Hv, Hc1; cbn; unfold retry_write;
    rewrite Hev; cbn; [done|by rewrite Hc2].
Qed.

(** C9. The retry is entered exactly when the direct write raises a type
    error: a failure of the direct write of any other class ends the call
    at once with that exception and the state the failed write left, and
    a type error hands over to the single retry. *)
Theorem retry_only_on_type_error (gui : list (string * item))
    (o : option (gmap string pyvalue)) (h : IOHandler R) pre post
    (k : string) (e : entry R) (g st : string) s s1
    (v : pyvalue) (ex : exn) (w1 : world R) :
  IOHandler_init R gui o = Ok h ->
  accessor_table R h = pre ++ (k, e) :: post ->
  run_all R true pre s = (s1, Ok tt) ->
  lookup_kind (cls (e_item e)) = Some (g, st) ->
  has_method R (e_item e) st = true ->
  inputs s1 !! k = Some v ->
  call_method R (e_item e) st [v] (widgets s1) = (w1, Raise ex) ->
  (is_TypeError ex = false ->
     inputs_to_fields R h s = (State w1 (inputs s1), Raise ex)) /\
  _connect_func R true k (e_item e) g st s1 =
    (if is_TypeError ex then
       retry_write R (Frame true k (e_item e) g st) v w1 (inputs s1)
     else (State w1 (inputs s1), Raise ex)).
Proof.
  intros Hinit Htbl Hpre Hk Hm Hv Hc1.
  assert (Hf : _connect_func R true k (e_item e) g st s1 =
    (if is_TypeError ex then
       retry_write R (Frame true k (e_item e) g st) v w1 (inputs s1)
     else (State w1 (inputs s1), Raise ex))).
  { by rewrite connect_func_write, Hm, Hv, Hc1. }
  split; [|done]. intros Hne.
  rewrite (inputs_to_fields_step gui o h pre post k e g st s s1) by done.
  by rewrite Hf, Hne.
Qed.

End InputsToFields.

(** ** [fields_to_inputs] and the round trip *)
Section FieldsToInputs.

Variable R : runtime.
Implicit Types (s : state R) (tbl : list (string * entry R)).
Implicit Types (holder : gmap string pyvalue).

Lemma table_ok_built (gui : list (string * item)) tbl :
  table_ok R gui tbl -> Forall (built R) tbl.
Proof.
  intros Hok. apply Forall_forall. intros [k e] Hin.
  by apply (table_entry_inv R gui tbl).
Qed.

Lemma run_all_read_frame tbl s :
  reads_are_pure R -> Forall (built R) tbl ->
  widgets (run_all R false tbl s).1 = widgets s /\
  (forall k : string, k ∉ tbl.*1 ->
     inputs (run_all R false tbl s).1 !! k = inputs s !! k).
Proof.
  intros Hpure Hall. revert s.
  induction Hall as [|[k e] tbl (Hkey & [g st] & Hgs & Hc) _ IH]; intros s.
  - by rewrite run_all_nil.
  - cbn in Hkey, Hgs, Hc. rewrite run_all_cons, Hc, Hkey.
    unfold closure_of. cbn [fst snd]. rewrite connect_func_read.
    destruct (has_method R (e_item e) g);
      [|split; [done|intros; reflexivity]].
    pose proof (Hpure (e_item e) g st (widgets s) Hgs) as Hw.
    destruct (call_method R (e_item e) g [] (widgets s)) as [w [v|ex]];
      cbn in Hw; subst w.
    + destruct (IH (State (widgets s) (<[k:=v]> (inputs s)))) as [IHw IHi].
      split; [exact IHw|].
      intros k' Hk'. cbn in Hk'. apply not_elem_of_cons in Hk' as [Hne Hk'].
      rewrite (IHi k' Hk'). cbn. by apply lookup_insert_ne.
    + split; [done|intros; reflexivity].
Qed.

(** C10. While the read accessors themselves change no widget (whatever
    the write accessors would do), [fields_to_inputs] leaves the state of
    all widgets as it was; what it changes are attributes of the data
    holder, and among those only the ones named by the accessor table. *)
Theorem fields_to_inputs_reads_only (gui : list (string * item))
    (o : option (gmap string pyvalue)) (h : IOHandler R) s :
  IOHandler_init R gui o = Ok h ->
  reads_are_pure R ->
  widgets (fields_to_inputs R h s).1 = widgets s /\
  (forall k : string, k ∉ (accessor_table R h).*1 ->
     inputs (fields_to_inputs R h s).1 !! k = inputs s !! k).
Proof.
  intros (_ & Hok & -> & _)%IOHandler_init_inv Hpure.
  apply run_all_read_frame; [done|]. by apply (table_ok_built gui).
Qed.

(** Reading every widget of world [w] stores each value under the name
    of its widget. *)
Lemma run_all_read_collects tbl (w : world R) holder :
  NoDup tbl.*1 -> Forall (built R) tbl ->
  Forall (fun ke => reads_back R w (e_item ke.2)) tbl ->
  exists holder',
    run_all R false tbl (State w holder) = (State w holder', Ok tt) /\
    (forall k : string, k ∉ tbl.*1 -> holder' !! k = holder !! k) /\
    Forall (fun ke => forall g st,
              lookup_kind (cls (e_item ke.2)) = Some (g, st) ->
              exists v, call_method R (e_item ke.2) g [] w = (w, Ok v) /\
                        holder' !! ke.1 = Some v) tbl.
Proof.
  intros Hnd Hall. revert holder Hnd.
  induction Hall as [|[k e] tbl (Hkey & [g st] & Hgs & Hc) _ IH];
    intros holder Hnd Hrb.
  - exists holder. by rewrite run_all_nil.
  - cbn in Hkey, Hgs, Hc. cbn in Hnd.
    apply NoDup_cons in Hnd as [Hk Hnd].
    apply Forall_cons in Hrb as [Hrb1 Hrb]. cbn [fst snd] in Hrb1.
    destruct (Hrb1 g st Hgs) as (Hg & _ & v & r & Hget & _).
    destruct (IH (<[k:=v]> holder) Hnd Hrb) as (holder' & Hrun & Hfr & Hvals).
    exists holder'. split; [|split].
    + rewrite run_all_cons, Hc, Hkey. unfold closure_of. cbn [fst snd].
      rewrite connect_func_read, Hg. cbn [widgets inputs]. by rewrite Hget.
    + intros k' Hk'. cbn in Hk'. apply not_elem_of_cons in Hk' as [Hne Hk'].
      rewrite (Hfr k' Hk'). by apply lookup_insert_ne.
    + constructor; [|done]. cbn. intros g' st' Hgs'.
      rewrite Hgs in Hgs'. injection Hgs' as <- <-.
      exists v. split; [done|]. rewrite (Hfr k Hk). apply lookup_insert_eq.
Qed.

(** Writing back values that were just read changes nothing. *)
Lemma run_all_write_back tbl (w : world R) holder :
  Forall (built R) tbl ->
  Forall (fun ke => reads_back R w (e_item ke.2)) tbl ->
  Forall (fun ke => forall g st,
            lookup_kind (cls (e_item ke.2)) = Some (g, st) ->
            exists v, call_method R (e_item ke.2) g [] w = (w, Ok v) /\
                      holder !! ke.1 = Some v) tbl ->
  run_all R true tbl (State w holder) = (State w holder, Ok tt).
Proof.
  induction 1 as [|[k e] tbl (Hkey & [g st] & Hgs & Hc) _ IH];
    intros Hrb Hvals.
  - by rewrite run_all_nil.
  - cbn in Hkey, Hgs, Hc.
    apply Forall_cons in Hrb as [Hrb1 Hrb]. cbn [fst snd] in Hrb1.
    apply Forall_cons in Hvals as [Hv1 Hvals]. cbn [fst snd] in Hv1.
    destruct (Hrb1 g st Hgs) as (_ & Hst & v & r & Hget & Hset).
    destruct (Hv1 g st Hgs) as (v' & Hget' & Hv). cbn in Hv.
    rewrite Hget in Hget'. injection Hget' as <-.
    rewrite run_all_cons, Hc, Hkey. unfold closure_of. cbn [fst snd].
    rewrite connect_func_write, Hst. cbn [widgets inputs].
    rewrite Hv, Hset. by apply IH.
Qed.

(** C1. From a state in which every widget of the accessor table can be
    read and accepts its own current value without change,
    [fields_to_inputs] followed at once by [inputs_to_fields] succeeds and
    ends with every widget holding exactly what it held at the start. *)
Theorem round_trip_restores_widgets (gui : list (string * item))
    (o : option (gmap string pyvalue)) (h : IOHandler R) s :
  IOHandler_init R gui o = Ok h ->
  Forall (fun ke => reads_back R (widgets s) (e_item ke.2))
         (accessor_table R h) ->
  exists s1,
    fields_to_inputs R h s = (s1, Ok tt) /\
    inputs_to_fields R h s1 = (s1, Ok tt) /\
    widgets s1 = widgets s.
Proof.
  intros (_ & Hok & -> & ->)%IOHandler_init_inv Hrb.
  pose proof (table_ok_built gui _ Hok) as Hb.
  destruct Hok as [Hnd _].
  destruct (run_all_read_collects _ (widgets s) (inputs s) Hnd Hb Hrb)
    as (holder' & Hrun & _ & Hvals).
  exists (State (widgets s) holder').
  rewrite <- (state_eta R s) at 1. rewrite Hrun.
  split; [done|]. split; [|done].
  by apply run_all_write_back.
Qed.

End FieldsToInputs.

(** ** What construction leaves out *)
Section Omissions.

Variable R : runtime.
Implicit Types (gui pre post : list (string * item)).
Implicit Types (o : option (gmap string pyvalue)).

Lemma NoDup_fst_unique {A B} (l : list (A * B)) (x : A) (y1 y2 : B) :
  NoDup l.*1 -> (x, y1) ∈ l -> (x, y2) ∈ l -> y1 = y2.
Proof.
  induction l as [|[a b] l IH]; cbn; intros Hnd H1 H2.
  - by apply elem_of_nil in H1.
  - apply NoDup_cons in Hnd as [Ha Hnd].
    assert (Hfst : forall y, (a, y) ∈ l -> False).
    { intros y Hy. apply Ha. apply list_elem_of_fmap. by exists (a, y). }
    apply elem_of_cons in H1 as [E1|H1];
      apply elem_of_cons in H2 as [E2|H2]; simplify_eq.
    + done.
    + by destruct (Hfst y2).
    + by destruct (Hfst y1).
    + by apply IH.
Qed.

Lemma IOHandler_init_skip pre post (key : string) (it : item) o :
  key <> "" ->
  excluded key = true \/ lookup_kind (cls it) = None ->
  IOHandler_init R (pre ++ (key, it) :: post) o
  = IOHandler_init R (pre ++ post) o.
Proof.
  intros Hne Hskip. unfold IOHandler_init, _connect_gui.
  by rewrite connect_gui_loop_skip.
Qed.

(** C4. An attribute whose name starts with the underscore is passed over
    whatever it holds: construction gives the same result as without the
    attribute, and no handler that construction returns has the name as a
    key of its accessor table (the table being all that either bulk
    operation goes through). *)
Theorem excluded_attribute_not_in_table gui pre post (key : string)
    (it : item) o :
  excluded key = true ->
  IOHandler_init R (pre ++ (key, it) :: post) o
    = IOHandler_init R (pre ++ post) o /\
  (forall h, IOHandler_init R gui o = Ok h ->
     (key ∉ (accessor_table R h).*1) /\
     fields_to_inputs R h = run_all R false (accessor_table R h) /\
     inputs_to_fields R h = run_all R true (accessor_table R h)).
Proof.
  intros Hex. split.
  - apply IOHandler_init_skip; [by apply excluded_nonempty | by left].
  - intros h (_ & Hok & Hf & Hi)%IOHandler_init_inv.
    split; [|done]. intros Hin.
    pose proof (table_key_public R gui _ key Hok Hin). congruence.
Qed.

(** C5. An attribute (with a non-empty name) holding an object whose class
    name is none of the four supported ones is passed over silently:
    construction gives the same result, error or not, as without the
    attribute, and its name is not a key of the accessor table. *)
Theorem unsupported_kind_omitted pre post (key : string) (it : item) o :
  key <> "" ->
  cls it ∉ supported_kinds ->
  NoDup (pre ++ (key, it) :: post).*1 ->
  IOHandler_init R (pre ++ (key, it) :: post) o
    = IOHandler_init R (pre ++ post) o /\
  (forall h, IOHandler_init R (pre ++ (key, it) :: post) o = Ok h ->
     key ∉ (accessor_table R h).*1).
Proof.
  intros Hne Hcls Hnd. split.
  - apply IOHandler_init_skip; [done|].
    right. by apply lookup_kind_unsupported.
  - intros h (_ & Hok & _)%IOHandler_init_inv Hin.
    destruct (table_key_supported R _ _ key Hok Hin) as (it' & Hit' & Hsup).
    assert (it' = it) as ->; [|done].
    apply (NoDup_fst_unique _ key it' it Hnd Hit').
    apply elem_of_app. right. apply list_elem_of_here.
Qed.

(** C6. Classification compares the name of the object's own class with
    the four kind names and nothing else: an object of a class derived
    from a supported kind, its own class name being none of the four, is
    matched by no test of the chain, gets no closure, and its attribute is
    not a key of the accessor table. *)
Theorem kind_matching_is_by_exact_class_name gui (key base : string)
    (it : item) o (h : IOHandler R) :
  base ∈ supported_kinds ->
  base ∈ bases it ->
  cls it ∉ supported_kinds ->
  NoDup gui.*1 ->
  (key, it) ∈ gui ->
  IOHandler_init R gui o = Ok h ->
  (forall t it', _check_type t it' = true <-> cls it' = t) /\
  (forall t, t ∈ supported_kinds -> _check_type t it = false) /\
  select_connect_func R it = None /\
  key ∉ (accessor_table R h).*1.
Proof.
  intros Hbase Hinh Hcls Hnd Hin (_ & Hok & _)%IOHandler_init_inv.
  split; [apply check_type_eq|]. split; [|split].
  - intros t Ht. destruct (_check_type t it) eqn:E; [|done].
    apply check_type_eq in E. congruence.
  - by rewrite select_connect_func_lookup, lookup_kind_unsupported.
  - intros Hk.
    destruct (table_key_supported R _ _ key Hok Hk) as (it' & Hit' & Hsup).
    by rewrite (NoDup_fst_unique _ key it it' Hnd Hin Hit') in Hcls.
Qed.

End Omissions.

(** * The properties on the simulated window *)

Lemma sim_kind_of_supported (it : item) (gs : string * string) :
  lookup_kind (cls it) = Some gs -> Sim.kind_of it = Some (cls it).
Proof.
  intros Hk. unfold Sim.kind_of. cbn [List.find].
  assert (Hsup : cls it ∈ supported_kinds)
    by (apply lookup_kind_supported; eauto).
  replace (existsb (String.eqb (cls it)) supported_kinds) with true; [done|].
  symmetry. apply existsb_exists. exists (cls it).
  split; [by apply list_elem_of_In | apply String.eqb_refl].
Qed.

Lemma sim_reads_are_pure : reads_are_pure Sim.rt.
Proof.
  intros it g st w Hk. cbn. unfold Sim.sim_call, Sim.accessors.
  rewrite (sim_kind_of_supported it _ Hk), Hk, String.eqb_refl.
  case_match; reflexivity.
Qed.

Lemma round_trip_restores_widgets_witness :
  exists s1,
    fields_to_inputs Sim.rt Sim.handler (Sim.start ∅) = (s1, Ok tt) /\
    inputs_to_fields Sim.rt Sim.handler s1 = (s1, Ok tt) /\
    widgets s1 = Sim.world0.
Proof.
  apply (round_trip_restores_widgets Sim.rt Sim.window None Sim.handler
           (Sim.start ∅)); [reflexivity|].
  change (accessor_table Sim.rt Sim.handler) with Sim.table.
  unfold Sim.table.
  repeat (apply Forall_cons_2 || apply Forall_nil_2); sim_kind.
  - split; [reflexivity|]. split; [reflexivity|].
    exists (VStr "alice"), VNone. split; sim_run.
  - split; [reflexivity|]. split; [reflexivity|].
    exists (VInt 3), VNone. split; sim_run.
  - split; [reflexivity|]. split; [reflexivity|].
    exists (VBool false), VNone. split; sim_run.
Defined.

Lemma coercion_fallback_witness :
  inputs (Sim.start Sim.holder_saved) !! "verbose" = Some (VStr "True") /\
  _connect_func Sim.rt true "verbose" Sim.w_verbose "isChecked" "setChecked"
    (Sim.st Sim.world_bob5 Sim.holder_saved)
  = (Sim.st Sim.world_bob5_checked Sim.holder_saved, Ok tt) /\
  inputs_to_fields Sim.rt Sim.handler (Sim.start Sim.holder_saved)
  = run_all Sim.rt true [] (Sim.st Sim.world_bob5_checked Sim.holder_saved).
Proof.
  split; [reflexivity|].
  apply (coercion_fallback Sim.rt Sim.window None Sim.handler
           [("username", Sim.e_username); ("retries", Sim.e_retries)] []
           "verbose" Sim.e_verbose "isChecked" "setChecked"
           (Sim.start Sim.holder_saved)
           (Sim.st Sim.world_bob5 Sim.holder_saved)
           (VStr "True") (VBool true) VNone
           "setChecked called with wrong argument types"
           Sim.world_bob5 Sim.world_bob5 Sim.world_bob5_checked
           Sim.holder_saved);
    first [reflexivity | sim_run].
Defined.

Lemma missing_field_error_witness :
  inputs (Sim.st Sim.world_bob Sim.holder_missing) !! "retries" = None /\
  inputs_to_fields Sim.rt Sim.handler (Sim.start Sim.holder_missing)
  = (Sim.st Sim.world_bob Sim.holder_missing,
     Raise (AttributeError "retries")).
Proof.
  split; [reflexivity|].
  apply (missing_field_error Sim.rt Sim.window None Sim.handler
           [("username", Sim.e_username)] [("verbose", Sim.e_verbose)]
           "retries" Sim.e_retries (Sim.start Sim.holder_missing)
           (Sim.st Sim.world_bob Sim.holder_missing)).
  - reflexivity.
  - reflexivity.
  - sim_kind. reflexivity.
  - sim_run.
  - reflexivity.
Defined.


Lemma retry_failure_propagates_witness :
  inputs_to_fields Sim.rt Sim.handler (Sim.start Sim.holder_maybe)
  = (Sim.st Sim.world_bob5 Sim.holder_maybe, Raise (NameError "maybe")).
Proof.
  refine (proj1 (retry_failure_propagates_unchanged Sim.rt Sim.window None
           Sim.handler
           [("username", Sim.e_username); ("retries", Sim.e_retries)] []
           "verbose" Sim.e_verbose "isChecked" "setChecked"
           (Sim.start Sim.holder_maybe)
           (Sim.st Sim.world_bob5 Sim.holder_maybe)
           (VStr "maybe") "setChecked called with wrong argument types"
           Sim.world_bob5 _ _ _ _ _ _ _)
           Sim.world_bob5 Sim.holder_maybe (NameError "maybe") _);
    first [reflexivity | sim_run].
Defined.

Lemma retry_only_on_type_error_witness :
  is_TypeError (OtherError "RuntimeError") = false /\
  inputs_to_fields Sim.rt Sim.handler
    (Sim.st Sim.world_no_stepper Sim.holder_saved)
  = (Sim.st (<[0%nat := VStr "bob"]> Sim.world_no_stepper) Sim.holder_saved,
     Raise (OtherError "RuntimeError")).
Proof.
  split; [reflexivity|].
  refine (proj1 (retry_only_on_type_error Sim.rt Sim.window None Sim.handler
           [("username", Sim.e_username)] [("verbose", Sim.e_verbose)]
           "retries" Sim.e_retries "value" "setValue"
           (Sim.st Sim.world_no_stepper Sim.holder_saved)
           (Sim.st (<[0%nat := VStr "bob"]> Sim.world_no_stepper)
                   Sim.holder_saved)
           (VInt 5) (OtherError "RuntimeError")
           (<[0%nat := VStr "bob"]> Sim.world_no_stepper)
           _ _ _ _ _ _ _) _);
    first [reflexivity | sim_run].
Defined.

Lemma fields_to_inputs_reads_only_witness :
  widgets (fields_to_inputs Sim.rt Sim.handler
             (Sim.start Sim.holder_saved)).1 = Sim.world0 /\
  (forall k : string, k ∉ (accessor_table Sim.rt Sim.handler).*1 ->
     inputs (fields_to_inputs Sim.rt Sim.handler
               (Sim.start Sim.holder_saved)).1 !! k
     = Sim.holder_saved !! k).
Proof.
  apply (fields_to_inputs_reads_only Sim.rt Sim.window None Sim.handler
           (Sim.start Sim.holder_saved) eq_refl sim_reads_are_pure).
Defined.

Lemma excluded_attribute_witness :
  excluded "_secret" = true /\
  IOHandler_init Sim.rt
    (take 1 Sim.window ++ ("_secret", Sim.w_private) :: drop 2 Sim.window) None
  = IOHandler_init Sim.rt (take 1 Sim.window ++ drop 2 Sim.window) None /\
  (forall h, IOHandler_init Sim.rt Sim.window None = Ok h ->
     ("_secret" ∉ (accessor_table Sim.rt h).*1) /\
     fields_to_inputs Sim.rt h = run_all Sim.rt false (accessor_table Sim.rt h) /\
     inputs_to_fields Sim.rt h = run_all Sim.rt true (accessor_table Sim.rt h)).
Proof.
  split; [reflexivity|].
  apply (excluded_attribute_not_in_table Sim.rt Sim.window
           (take 1 Sim.window) (drop 2 Sim.window) "_secret" Sim.w_private
           None).
  reflexivity.
Defined.

Lemma unsupported_kind_omitted_witness :
  cls Sim.w_label = "QLabel" /\
  IOHandler_init Sim.rt
    (take 3 Sim.window ++ ("title", Sim.w_label) :: drop 4 Sim.window) None
  = IOHandler_init Sim.rt (take 3 Sim.window ++ drop 4 Sim.window) None /\
  (forall h,
     IOHandler_init Sim.rt
       (take 3 Sim.window ++ ("title", Sim.w_label) :: drop 4 Sim.window) None
     = Ok h ->
     "title" ∉ (accessor_table Sim.rt h).*1).
Proof.
  split; [reflexivity|].
  apply (unsupported_kind_omitted Sim.rt (take 3 Sim.window)
           (drop 4 Sim.window) "title" Sim.w_label None).
  - discriminate.
  - apply (bool_decide_unpack _). sim_run.
  - apply (bool_decide_unpack _). sim_run.
Defined.

Lemma kind_matching_witness :
  (forall t it', _check_type t it' = true <-> cls it' = t) /\
  (forall t, t ∈ supported_kinds -> _check_type t Sim.w_fancy = false) /\
  select_connect_func Sim.rt Sim.w_fancy = None /\
  "fancy" ∉ (accessor_table Sim.rt Sim.handler).*1.
Proof.
  apply (kind_matching_is_by_exact_class_name Sim.rt Sim.window "fancy"
           "QCheckBox" Sim.w_fancy None Sim.handler).
  - apply (bool_decide_unpack _). sim_run.
  - apply (bool_decide_unpack _). sim_run.
  - apply (bool_decide_unpack _). sim_run.
  - apply (bool_decide_unpack _). sim_run.
  - unfold Sim.window.
    repeat first [apply list_elem_of_here | apply list_elem_of_further].
  - reflexivity.
Defined.

(** C8, as stated, fails. The toggle's stored value is the text [maybe]:
    the direct write raises a type error, the retry fails in the
    evaluation, and what reaches the caller is the name error of the
    evaluation, which is no type error and mentions neither the widget
    [verbose] nor a mismatch. *)
Lemma retry_failure_is_not_a_type_mismatch :
  inputs (Sim.start Sim.holder_maybe) !! "verbose" = Some (VStr "maybe") /\
  call_method Sim.rt Sim.w_verbose "setChecked" [VStr "maybe"] Sim.world_bob5
  = (Sim.world_bob5, Raise (Sim.wrong_arguments "setChecked")) /\
  py_eval Sim.rt (Frame true "verbose" Sim.w_verbose "isChecked" "setChecked")
    (VStr "maybe") Sim.world_bob5 Sim.holder_maybe
  = (Sim.world_bob5, Sim.holder_maybe, Raise (NameError "maybe")) /\
  inputs_to_fields Sim.rt Sim.handler (Sim.start Sim.holder_maybe)
  = (Sim.st Sim.world_bob5 Sim.holder_maybe, Raise (NameError "maybe")) /\
  ~ (exists msg, NameError "maybe" = TypeError msg).
Proof.
  repeat split; try sim_run. intros [msg Hmsg]. discriminate.
Qed.

(** * Further properties of construction *)
Section ConstructionOutcome.

Variable R : runtime.
Implicit Types (gui attrs : list (string * item)).
Implicit Types (tbl acc : list (string * entry R)).
Implicit Types (o : option (gmap string pyvalue)).

Lemma connect_gui_loop_outcome attrs acc :
  ("" ∈ attrs.*1 -> connect_gui_loop R attrs acc = Raise IndexError) /\
  ("" ∉ attrs.*1 -> exists tbl, connect_gui_loop R attrs acc = Ok tbl).
Proof.
  revert acc. induction attrs as [|[key it] rest IH]; intros acc; cbn.
  - split; [by intros ?%elem_of_nil | eauto].
  - destruct key as [|c key'].
    + split; [done|]. intros []. apply list_elem_of_here.
    + assert (Hiff : "" ∈ String c key' :: rest.*1 <-> "" ∈ rest.*1).
      { rewrite elem_of_cons. split; [by intros [?|?] | by right]. }
      rewrite Hiff.
      destruct (Ascii.eqb c "_"); [apply IH|].
      destruct (select_connect_func R it); apply IH.
Qed.

(** Construction fails exactly when the window has an attribute whose
    name is the empty string (line 108 indexes [key[0]]), and then with
    [IndexError], wherever in the window that attribute comes; in every
    other case it returns a handler. *)
Theorem construction_fails_exactly_on_empty_name gui o :
  ("" ∈ gui.*1 <-> IOHandler_init R gui o = Raise IndexError) /\
  ("" ∉ gui.*1 <-> exists h, IOHandler_init R gui o = Ok h).
Proof.
  unfold IOHandler_init, _connect_gui.
  destruct (connect_gui_loop_outcome gui []) as [Hin Hout].
  destruct (decide ("" ∈ gui.*1)) as [H|H].
  - rewrite (Hin H). split; split; try done. by intros [h ?].
  - destruct (Hout H) as [tbl ->]. cbn. split; split; try done. eauto.
Qed.

Lemma dict_set_fresh (key : string) (v : entry R) tbl :
  key ∉ tbl.*1 -> dict_set R key v tbl = tbl ++ [(key, v)].
Proof.
  induction tbl as [|[k0 w] d IH]; cbn; intros Hk; [done|].
  apply not_elem_of_cons in Hk as [Hne Hk].
  destruct (String.eqb_spec k0 key) as [->|_]; [done|].
  by rewrite IH.
Qed.

Lemma excluded_cons (c : ascii) (key' : string) :
  excluded (String c key') = Ascii.eqb c "_".
Proof. reflexivity. Qed.

Lemma connect_gui_loop_omap attrs acc :
  NoDup attrs.*1 -> "" ∉ attrs.*1 ->
  (forall k : string, k ∈ attrs.*1 -> k ∉ acc.*1) ->
  connect_gui_loop R attrs acc = Ok (acc ++ omap (entry_of R) attrs).
Proof.
  revert acc. induction attrs as [|[key it] rest IH]; intros acc Hnd Hne Hfresh.
  - cbn. by rewrite app_nil_r.
  - cbn in Hnd, Hne, Hfresh. apply NoDup_cons in Hnd as [Hkey Hnd].
    apply not_elem_of_cons in Hne as [Hk0 Hne].
    assert (Hrest : forall k : string, k ∈ rest.*1 -> k ∉ acc.*1).
    { intros k Hk. apply Hfresh. by right. }
    destruct key as [|c key']; [done|].
    cbn [connect_gui_loop omap list_omap]. unfold entry_of at 1.
    cbn [fst snd]. rewrite excluded_cons.
    destruct (Ascii.eqb c "_"); [by apply IH|].
    rewrite select_connect_func_lookup.
    destruct (lookup_kind (cls it)) as [gs|]; cbn [fmap option_fmap option_map];
      [|by apply IH].
    rewrite dict_set_fresh by (apply Hfresh; left).
    rewrite IH; [by rewrite <- app_assoc|done|done|].
    intros k Hk. rewrite fmap_app. cbn. rewrite elem_of_app, list_elem_of_singleton.
    intros [Hacc| ->]; [by apply (Hrest k)|done].
Qed.

(** For a window whose attributes have distinct, non-empty names,
    construction succeeds and the accessor table holds, in the order of
    the window, one entry for every public attribute of a supported class
    and nothing else; each entry sits under the attribute's name and
    carries that name, that object and the closure of the class's accessor
    pair. *)
Theorem accessor_table_lists_public_supported_widgets gui o :
  NoDup gui.*1 -> "" ∉ gui.*1 ->
  exists h,
    IOHandler_init R gui o = Ok h /\
    accessor_table R h = omap (entry_of R) gui /\
    (forall (k : string) it, (k, it) ∈ gui -> excluded k = false ->
       cls it ∈ supported_kinds -> k ∈ (accessor_table R h).*1).
Proof.
  intros Hnd Hne. unfold IOHandler_init, _connect_gui.
  rewrite connect_gui_loop_omap; [|done|done|].
  2:{ intros k _. cbn. apply not_elem_of_nil. }
  cbn. eexists. split; [reflexivity|]. cbn. split; [done|].
  intros k it Hin Hex Hsup.
  apply lookup_kind_supported in Hsup as [gs Hgs].
  apply list_elem_of_fmap.
  exists (k, Entry (closure_of R gs) k it). split; [done|].
  apply list_elem_of_omap. exists (k, it). split; [done|].
  unfold entry_of. cbn. by rewrite Hex, Hgs.
Qed.

Lemma input_types_lookup (c g s : string) :
  (c, (g, s)) ∈ input_types -> lookup_kind c = Some (g, s).
Proof.
  unfold input_types. rewrite !elem_of_cons, elem_of_nil.
  intros [E|[E|[E|[E|[]]]]]; by injection E as -> -> ->.
Qed.

(** The [if]/[elif] chain of lines 113-120 binds to an object the closure
    over exactly the accessor pair that the class attribute
    [IOHandler.input_types] lists for the name of its class. *)
Theorem dispatch_agrees_with_input_types (it : item) (g s : string) :
  (cls it, (g, s)) ∈ input_types ->
  select_connect_func R it = Some (fun r k i => _connect_func R r k i g s).
Proof.
  intros Hin. rewrite select_connect_func_lookup.
  by rewrite (input_types_lookup _ _ _ Hin).
Qed.

Lemma connect_gui_loop_nothing attrs acc :
  (forall (k : string) it, (k, it) ∈ attrs ->
     k <> "" /\ (excluded k = true \/ cls it ∉ supported_kinds)) ->
  connect_gui_loop R attrs acc = Ok acc.
Proof.
  induction attrs as [|[key it] rest IH]; intros Hall; [done|].
  destruct (Hall key it) as [Hne Hskip]; [apply list_elem_of_here|].
  cbn. destruct key as [|c key']; [done|].
  rewrite excluded_cons in Hskip.
  assert (Hrest : connect_gui_loop R rest acc = Ok acc).
  { apply IH. intros k i Hin. apply Hall. by right. }
  destruct (Ascii.eqb c "_"); [done|].
  destruct Hskip as [?|Hcls]; [done|].
  by rewrite select_connect_func_lookup, lookup_kind_unsupported.
Qed.

(** A window all of whose attributes have a non-empty name and are
    private or of an unsupported class (the empty window included) gives a
    handler with an empty accessor table, and both bulk operations return
    without changing anything. *)
Theorem no_supported_widget_no_effect gui o :
  (forall (k : string) it, (k, it) ∈ gui ->
     k <> "" /\ (excluded k = true \/ cls it ∉ supported_kinds)) ->
  exists h,
    IOHandler_init R gui o = Ok h /\
    accessor_table R h = [] /\
    (forall s, fields_to_inputs R h s = (s, Ok tt) /\
               inputs_to_fields R h s = (s, Ok tt)).
Proof.
  intros Hall. unfold IOHandler_init, _connect_gui.
  rewrite (connect_gui_loop_nothing gui [] Hall). cbn.
  eexists. split; [reflexivity|]. cbn. split; [done|].
  intros s. split; reflexivity.
Qed.

End ConstructionOutcome.

(** * Further properties of the bulk operations *)
Section BulkOperations.

Variable R : runtime.
Implicit Types (s : state R) (tbl pre post : list (string * entry R)).
Implicit Types (o : option (gmap string pyvalue)).

Lemma fields_to_inputs_step (gui : list (string * item)) o
    (h : IOHandler R) pre post (k : string) (e : entry R)
    (g st : string) s s1 :
  IOHandler_init R gui o = Ok h ->
  accessor_table R h = pre ++ (k, e) :: post ->
  lookup_kind (cls (e_item e)) = Some (g, st) ->
  run_all R false pre s = (s1, Ok tt) ->
  fields_to_inputs R h s =
  match _connect_func R false k (e_item e) g st s1 with
  | (s2, Ok _) => run_all R false post s2
  | (s2, Raise ex) => (s2, Raise ex)
  end.
Proof.
  intros (_ & Hok & -> & _)%IOHandler_init_inv Htbl Hk Hpre.
  destruct (table_entry_inv R gui _ k e Hok) as (Hkey & gs & Hgs & Hc).
  { rewrite Htbl. apply elem_of_app. right. apply list_elem_of_here. }
  rewrite Htbl, run_all_app, Hpre, run_all_cons, Hc, Hkey.
  rewrite Hk in Hgs. by injection Hgs as <-.
Qed.

(** What a successful pass of reads leaves behind. *)
Lemma run_all_read_values tbl s s1 :
  reads_are_pure R -> NoDup tbl.*1 -> Forall (built R) tbl ->
  run_all R false tbl s = (s1, Ok tt) ->
  widgets s1 = widgets s /\
  Forall (fun ke => forall g st,
            lookup_kind (cls (e_item ke.2)) = Some (g, st) ->
            has_method R (e_item ke.2) g = true /\
            exists v, call_method R (e_item ke.2) g [] (widgets s)
                      = (widgets s, Ok v) /\
                      inputs s1 !! ke.1 = Some v) tbl.
Proof.
  intros Hpure Hnd Hall. revert s Hnd.
  induction Hall as [|[k e] tbl (Hkey & [g st] & Hgs & Hc) Hb IH];
    intros s Hnd.
  - rewrite run_all_nil. by intros [= <-].
  - cbn in Hkey, Hgs, Hc, Hnd. apply NoDup_cons in Hnd as [Hk Hnd].
    rewrite run_all_cons, Hc, Hkey. unfold closure_of. cbn [fst snd].
    rewrite connect_func_read.
    destruct (has_method R (e_item e) g) eqn:Hm; [|discriminate].
    pose proof (Hpure (e_item e) g st (widgets s) Hgs) as Hw.
    destruct (call_method R (e_item e) g [] (widgets s)) as [w [v|ex]] eqn:Hcall;
      [|discriminate].
    cbn in Hw. subst w. intros Hrun.
    destruct (IH _ Hnd Hrun) as [Hw1 Hvals]. cbn in Hw1.
    split; [done|]. constructor; [|exact Hvals].
    cbn [fst snd]. intros g' st' Hgs'. rewrite Hgs in Hgs'.
    injection Hgs' as <- <-. split; [done|]. exists v. split; [done|].
    destruct (run_all_read_frame R tbl
                (State (widgets s) (<[k:=v]> (inputs s))) Hpure Hb) as [_ Hfr].
    rewrite Hrun in Hfr. cbn in Hfr. rewrite (Hfr k Hk).
    apply lookup_insert_eq.
Qed.

(** After a successful [fields_to_inputs] (the read accessors changing no
    widget), the data holder has, under the name of every widget of the
    accessor table, the value that the widget's read accessor returns;
    an attribute that was there before under that name is overwritten. *)
Theorem fields_to_inputs_stores_widget_values (gui : list (string * item)) o
    (h : IOHandler R) s s1 (k : string) (e : entry R) (g st : string) :
  IOHandler_init R gui o = Ok h ->
  reads_are_pure R ->
  fields_to_inputs R h s = (s1, Ok tt) ->
  (k, e) ∈ accessor_table R h ->
  lookup_kind (cls (e_item e)) = Some (g, st) ->
  exists v,
    call_method R (e_item e) g [] (widgets s) = (widgets s, Ok v) /\
    inputs s1 !! k = Some v.
Proof.
  intros (_ & Hok & -> & _)%IOHandler_init_inv Hpure Hrun Hin Hgs.
  pose proof (table_ok_built R gui _ Hok) as Hb. destruct Hok as [Hnd _].
  destruct (run_all_read_values _ s s1 Hpure Hnd Hb Hrun) as [_ Hvals].
  rewrite Forall_forall in Hvals.
  destruct (Hvals _ Hin g st Hgs) as (_ & v & ? & ?). eauto.
Qed.

Lemma run_all_read_dom tbl s s1 :
  Forall (built R) tbl ->
  run_all R false tbl s = (s1, Ok tt) ->
  dom (inputs s1) = dom (inputs s) ∪ list_to_set tbl.*1.
Proof.
  intros Hall. revert s.
  induction Hall as [|[k e] tbl (Hkey & [g st] & Hgs & Hc) _ IH]; intros s.
  - rewrite run_all_nil. intros [= <-]. cbn. by rewrite union_empty_r_L.
  - cbn in Hkey, Hgs, Hc.
    rewrite run_all_cons, Hc, Hkey. unfold closure_of. cbn [fst snd].
    rewrite connect_func_read.
    destruct (has_method R (e_item e) g); [|discriminate].
    destruct (call_method R (e_item e) g [] (widgets s)) as [w [v|ex]];
      [|discriminate].
    intros Hrun. rewrite (IH _ Hrun). cbn. rewrite dom_insert_L.
    by rewrite (comm_L (∪) {[k]} (dom (inputs s))), (assoc_L (∪)).
Qed.

(** A successful [fields_to_inputs] creates the attributes that are
    missing and removes none: afterwards the data holder has exactly the
    attributes it had and those named by the accessor table. *)
Theorem fields_to_inputs_attribute_names (gui : list (string * item)) o
    (h : IOHandler R) s s1 :
  IOHandler_init R gui o = Ok h ->
  fields_to_inputs R h s = (s1, Ok tt) ->
  dom (inputs s1) = dom (inputs s) ∪ list_to_set (accessor_table R h).*1.
Proof.
  intros (_ & Hok & -> & _)%IOHandler_init_inv Hrun.
  apply run_all_read_dom; [|done]. by apply (table_ok_built R gui).
Qed.

(** [fields_to_inputs] stops at the first widget whose read accessor
    raises: the exception reaches the caller, the data holder is as the
    earlier entries left it (nothing is stored for the failing widget) and
    no later widget is read. *)
Theorem fields_to_inputs_aborts_at_first_failed_read
    (gui : list (string * item)) o (h : IOHandler R) pre post
    (k : string) (e : entry R) (g st : string) s s1
    (w : world R) (ex : exn) :
  IOHandler_init R gui o = Ok h ->
  accessor_table R h = pre ++ (k, e) :: post ->
  run_all R false pre s = (s1, Ok tt) ->
  lookup_kind (cls (e_item e)) = Some (g, st) ->
  has_method R (e_item e) g = true ->
  call_method R (e_item e) g [] (widgets s1) = (w, Raise ex) ->
  fields_to_inputs R h s = (State w (inputs s1), Raise ex).
Proof.
  intros Hinit Htbl Hpre Hgs Hm Hcall.
  rewrite (fields_to_inputs_step gui o h pre post k e g st s s1) by done.
  by rewrite connect_func_read, Hm, Hcall.
Qed.

Lemma run_all_read_again tbl (w : world R) (holder : gmap string pyvalue) :
  Forall (built R) tbl ->
  Forall (fun ke => forall g st,
            lookup_kind (cls (e_item ke.2)) = Some (g, st) ->
            has_method R (e_item ke.2) g = true /\
            exists v, call_method R (e_item ke.2) g [] w = (w, Ok v) /\
                      holder !! ke.1 = Some v) tbl ->
  run_all R false tbl (State w holder) = (State w holder, Ok tt).
Proof.
  induction 1 as [|[k e] tbl (Hkey & [g st] & Hgs & Hc) _ IH]; intros Hvals.
  - by rewrite run_all_nil.
  - cbn in Hkey, Hgs, Hc.
    apply Forall_cons in Hvals as [Hv1 Hvals]. cbn [fst snd] in Hv1.
    destruct (Hv1 g st Hgs) as (Hm & v & Hcall & Hv).
    rewrite run_all_cons, Hc, Hkey. unfold closure_of. cbn [fst snd].
    rewrite connect_func_read, Hm. cbn [widgets inputs]. rewrite Hcall.
    rewrite (insert_id _ _ _ Hv). by apply IH.
Qed.

(** [fields_to_inputs] is idempotent (the read accessors changing no
    widget): run again right after it succeeded, it succeeds and leaves
    the widgets and the data holder as they are. *)
Theorem fields_to_inputs_idempotent (gui : list (string * item)) o
    (h : IOHandler R) s s1 :
  IOHandler_init R gui o = Ok h ->
  reads_are_pure R ->
  fields_to_inputs R h s = (s1, Ok tt) ->
  fields_to_inputs R h s1 = (s1, Ok tt).
Proof.
  intros (_ & Hok & -> & _)%IOHandler_init_inv Hpure Hrun.
  pose proof (table_ok_built R gui _ Hok) as Hb. destruct Hok as [Hnd _].
  destruct (run_all_read_values _ s s1 Hpure Hnd Hb Hrun) as [Hw Hvals].
  destruct s1 as [w1 holder1]. cbn in Hw, Hvals. subst w1.
  by apply run_all_read_again.
Qed.

(** When the object of an entry has no write accessor, [inputs_to_fields]
    ends at that entry with the attribute error that names the accessor,
    whether or not the data holder has an attribute for the widget: the
    accessor is looked up before the holder is read, and the error is not
    one that the [except] clause catches. *)
Theorem missing_write_accessor_error (gui : list (string * item)) o
    (h : IOHandler R) pre post (k : string) (e : entry R)
    (g st : string) s s1 :
  IOHandler_init R gui o = Ok h ->
  accessor_table R h = pre ++ (k, e) :: post ->
  run_all R true pre s = (s1, Ok tt) ->
  lookup_kind (cls (e_item e)) = Some (g, st) ->
  has_method R (e_item e) st = false ->
  inputs_to_fields R h s = (s1, Raise (AttributeError st)).
Proof.
  intros Hinit Htbl Hpre Hgs Hm.
  rewrite (inputs_to_fields_step R gui o h pre post k e g st s s1) by done.
  by rewrite connect_func_write, Hm.
Qed.

(** When the direct write of the stored value is accepted, the entry is
    done with that one write (the stored value is not evaluated and no
    second write happens) and the call goes on with the remaining
    entries. *)
Theorem accepted_write_is_final (gui : list (string * item)) o
    (h : IOHandler R) pre post (k : string) (e : entry R)
    (g st : string) s s1 (v r : pyvalue) (w1 : world R) :
  IOHandler_init R gui o = Ok h ->
  accessor_table R h = pre ++ (k, e) :: post ->
  run_all R true pre s = (s1, Ok tt) ->
  lookup_kind (cls (e_item e)) = Some (g, st) ->
  has_method R (e_item e) st = true ->
  inputs s1 !! k = Some v ->
  call_method R (e_item e) st [v] (widgets s1) = (w1, Ok r) ->
  inputs_to_fields R h s = run_all R true post (State w1 (inputs s1)).
Proof.
  intros Hinit Htbl Hpre Hgs Hm Hv Hcall.
  rewrite (inputs_to_fields_step R gui o h pre post k e g st s s1) by done.
  by rewrite connect_func_write, Hm, Hv, Hcall.
Qed.

End BulkOperations.

(** * The further properties on the simulated windows *)

Lemma accessor_table_lists_witness :
  exists h,
    IOHandler_init Sim.rt Sim.window None = Ok h /\
    accessor_table Sim.rt h = omap (entry_of Sim.rt) Sim.window /\
    (forall (k : string) it, (k, it) ∈ Sim.window -> excluded k = false ->
       cls it ∈ supported_kinds -> k ∈ (accessor_table Sim.rt h).*1).
Proof.
  apply (accessor_table_lists_public_supported_widgets Sim.rt Sim.window None).
  - apply (bool_decide_unpack _). sim_run.
  - apply (bool_decide_unpack _). sim_run.
Defined.

Lemma dispatch_agrees_witness :
  select_connect_func Sim.rt Sim.w_retries
  = Some (fun r k i => _connect_func Sim.rt r k i "value" "setValue").
Proof.
  apply (dispatch_agrees_with_input_types Sim.rt Sim.w_retries
           "value" "setValue").
  unfold input_types.
  repeat first [apply list_elem_of_here | apply list_elem_of_further].
Defined.

Lemma no_supported_widget_witness :
  exists h,
    IOHandler_init Sim.rt Sim.window_plain None = Ok h /\
    accessor_table Sim.rt h = [] /\
    (forall s, fields_to_inputs Sim.rt h s = (s, Ok tt) /\
               inputs_to_fields Sim.rt h s = (s, Ok tt)).
Proof.
  apply (no_supported_widget_no_effect Sim.rt Sim.window_plain None).
  intros k it Hin. unfold Sim.window_plain in Hin.
  rewrite !elem_of_cons, elem_of_nil in Hin.
  destruct Hin as [E|[E|[E|[]]]]; injection E as -> ->;
    (split; [discriminate|]).
  - left. reflexivity.
  - right. apply (bool_decide_unpack _). sim_run.
  - right. apply (bool_decide_unpack _). sim_run.
Defined.

Lemma fields_to_inputs_stores_witness :
  exists v,
    call_method Sim.rt (e_item Sim.e_retries) "value" []
      (widgets (Sim.start Sim.holder_saved))
    = (widgets (Sim.start Sim.holder_saved), Ok v) /\
    inputs (fields_to_inputs Sim.rt Sim.handler
              (Sim.start Sim.holder_saved)).1 !! "retries" = Some v.
Proof.
  apply (fields_to_inputs_stores_widget_values Sim.rt Sim.window None
           Sim.handler (Sim.start Sim.holder_saved)
           (fields_to_inputs Sim.rt Sim.handler (Sim.start Sim.holder_saved)).1
           "retries" Sim.e_retries "value" "setValue").
  - reflexivity.
  - exact sim_reads_are_pure.
  - sim_run.
  - change (accessor_table Sim.rt Sim.handler) with Sim.table.
    unfold Sim.table.
    repeat first [apply list_elem_of_here | apply list_elem_of_further].
  - reflexivity.
Defined.

Lemma fields_to_inputs_attribute_names_witness :
  dom (inputs (fields_to_inputs Sim.rt Sim.handler
                 (Sim.start Sim.holder_missing)).1)
  = dom (inputs (Sim.start Sim.holder_missing))
    ∪ list_to_set (accessor_table Sim.rt Sim.handler).*1.
Proof.
  apply (fields_to_inputs_attribute_names Sim.rt Sim.window None Sim.handler
           (Sim.start Sim.holder_missing)).
  - reflexivity.
  - sim_run.
Defined.

Lemma fields_to_inputs_aborts_witness :
  fields_to_inputs Sim.rt Sim.handler (Sim.st Sim.world_no_stepper ∅)
  = (Sim.st Sim.world_no_stepper (<["username" := VStr "alice"]> ∅),
     Raise (OtherError "RuntimeError")).
Proof.
  refine (fields_to_inputs_aborts_at_first_failed_read Sim.rt Sim.window None
           Sim.handler [("username", Sim.e_username)]
           [("verbose", Sim.e_verbose)] "retries" Sim.e_retries
           "value" "setValue"
           (Sim.st Sim.world_no_stepper ∅)
           (Sim.st Sim.world_no_stepper (<["username" := VStr "alice"]> ∅))
           Sim.world_no_stepper (OtherError "RuntimeError") _ _ _ _ _ _);
    first [reflexivity | sim_run].
Defined.

Lemma fields_to_inputs_idempotent_witness :
  fields_to_inputs Sim.rt Sim.handler
    (fields_to_inputs Sim.rt Sim.handler (Sim.start Sim.holder_saved)).1
  = ((fields_to_inputs Sim.rt Sim.handler (Sim.start Sim.holder_saved)).1,
     Ok tt).
Proof.
  apply (fields_to_inputs_idempotent Sim.rt Sim.window None Sim.handler
           (Sim.start Sim.holder_saved)).
  - reflexivity.
  - exact sim_reads_are_pure.
  - sim_run.
Defined.

Lemma missing_write_accessor_witness :
  Sim.holder_saved !! "notes" = None /\
  inputs_to_fields Sim.rt_strict Sim.handler_notes
    (State (R := Sim.rt_strict) Sim.world0 Sim.holder_saved)
  = (State (R := Sim.rt_strict) Sim.world_bob Sim.holder_saved,
     Raise (AttributeError "setText")).
Proof.
  split; [reflexivity|].
  apply (missing_write_accessor_error Sim.rt_strict Sim.window_notes None
           Sim.handler_notes [("username", Sim.e_username_strict)] []
           "notes" Sim.e_notes_strict "text" "setText"
           (State (R := Sim.rt_strict) Sim.world0 Sim.holder_saved)
           (State (R := Sim.rt_strict) Sim.world_bob Sim.holder_saved));
    first [reflexivity | sim_run].
Defined.

Lemma accepted_write_witness :
  inputs_to_fields Sim.rt Sim.handler (Sim.start Sim.holder_saved)
  = run_all Sim.rt true
      [("retries", Sim.e_retries); ("verbose", Sim.e_verbose)]
      (Sim.st Sim.world_bob Sim.holder_saved).
Proof.
  apply (accepted_write_is_final Sim.rt Sim.window None Sim.handler []
           [("retries", Sim.e_retries); ("verbose", Sim.e_verbose)]
           "username" Sim.e_username "text" "setText"
           (Sim.start Sim.holder_saved) (Sim.start Sim.holder_saved)
           (VStr "bob") VNone Sim.world_bob);
    first [reflexivity | sim_run].
Defined.
